(** * Larval-habitat capacity models: a shallow embedding of [habitat.py]

    The program is a small family of Python classes whose instances carry
    a mutable capacity and are advanced one weather record at a time:

      - [BaseHabitatModel]               the abstract base class
      - [ConstantHabitatModel]           constant capacity
      - [TemporaryRainfallHabitatModel]  rainfall accumulation and
                                         Clausius-Clapeyron evaporation
      - [SeasonalStreamHabitatModel]     the rainfall model capped from above,
                                         with a stream-flow accumulator

    Conventions of the embedding.

    - Interpreter.  The program is read as Python 3: [/] is true division,
      and the class attribute [__metaclass__] is an ordinary attribute
      without effect, so that [BaseHabitatModel] can be instantiated.
    - Numbers.  Python numbers are modelled as real numbers: the arithmetic
      of the source is read as exact arithmetic.  Rounding, overflow
      (including the [OverflowError] of [math.exp]), infinities and NaN are
      outside the model.  Module [Binary64] runs the arithmetic of [update]
      in binary64 to show an order that rounding reverses; the statements
      on orders below are kept to steps where rounding is monotone.
    - Exceptions.  The two exceptions that exact arithmetic can raise in this
      program are kept: [ZeroDivisionError] of [/] and the [ValueError] that
      [math.sqrt] raises on a negative argument.
    - State.  A method is a computation [M S A]: it takes the object's state
      and gives an outcome (a returned value or a raised exception) together
      with the state the object is left in.  A raised exception keeps the
      assignments made before it, as in Python.
    - Inheritance.  A subclass instance holds the state of its parent class
      as a field; a call through [super] runs the parent's method on that
      field ([zoom]). *)

From Stdlib Require Import Reals Lra List.
From Stdlib Require Floats.PrimFloat.
Import ListNotations.
Local Open Scope R_scope.

(** ** Outcomes, and computations over an object's state *)

Inductive exn : Set :=
| ZeroDivisionError
| ValueError.

Inductive outcome (A : Type) : Type :=
| Returns (a : A)
| Raises (e : exn).

Arguments Returns {A} a.
Arguments Raises {A} e.

Definition M (S A : Type) : Type := S -> outcome A * S.

Definition ret {S A : Type} (a : A) : M S A :=
  fun s => (Returns a, s).

Definition bind {S A B : Type} (c : M S A) (k : A -> M S B) : M S B :=
  fun s =>
    match c s with
    | (Returns a, s') => k a s'
    | (Raises e, s') => (Raises e, s')
    end.

(** [self] as a value: reading attributes. *)
Definition get {S : Type} : M S S :=
  fun s => (Returns s, s).

(** An assignment to attributes of [self]. *)
Definition modify {S : Type} (f : S -> S) : M S unit :=
  fun s => (Returns tt, f s).

(** An expression that may raise but touches no state. *)
Definition lift {S A : Type} (o : outcome A) : M S A :=
  fun s => (o, s).

(** A call through [super]: the parent's method runs on the parent's part of
    the state. *)
Definition zoom {S P A : Type} (proj : S -> P) (upd : S -> P -> S)
    (c : M P A) : M S A :=
  fun s => let (o, p') := c (proj s) in (o, upd s p').

Declare Scope py_scope.
Delimit Scope py_scope with py.
Notation "x <- c ;; k" := (bind c (fun x => k))
  (at level 61, c at next level, right associativity) : py_scope.
Notation "c ;; k" := (bind c (fun _ => k))
  (at level 61, right associativity) : py_scope.
Local Open Scope py_scope.

(** A driver's loop [for w in ws: model.update(w)]; an exception ends it. *)
Fixpoint for_each {S W : Type} (body : W -> M S unit) (ws : list W)
    : M S unit :=
  match ws with
  | [] => ret tt
  | w :: ws' => body w ;; for_each body ws'
  end.

(** ** The Python operations the program uses *)

(** [x / y] on floats. *)
Definition py_div (x y : R) : outcome R :=
  if Req_dec_T y 0 then Raises ZeroDivisionError else Returns (x / y).

(** [math.sqrt]. *)
Definition math_sqrt (x : R) : outcome R :=
  if Rlt_dec x 0 then Raises ValueError else Returns (sqrt x).

(** [math.exp] and [math.pi]. *)
Definition math_exp (x : R) : R := exp x.
Definition math_pi : R := PI.

(** ** The weather record

    Modelled from the spec: the class of the [weather] argument is not part
    of the source, which only reads the three attributes below. *)

Record WeatherRecord : Type := mkWeather {
  mean_temp_C : R;
  rel_humid : R;
  rain_mm : R
}.

(** ** [class BaseHabitatModel] *)

Module BaseHabitatModel.

Record t : Type := mk { _capacity : R }.

Definition __init__ : t := {| _capacity := 0 |}.

(** The body of the abstract method is [pass]. *)
Definition update (weather : WeatherRecord) : M t unit :=
  ret tt.

Definition get_current_capacity : M t R :=
  self <- get ;;
  ret (_capacity self).

End BaseHabitatModel.

(** ** [class ConstantHabitatModel(BaseHabitatModel)] *)

Module ConstantHabitatModel.

(** The instance has the one attribute of the base class; [__init__]
    assigns it without calling the base initialiser. *)
Definition t : Type := BaseHabitatModel.t.

Definition _capacity (self : t) : R := BaseHabitatModel._capacity self.

Definition __init__ (capacity : R) : t :=
  {| BaseHabitatModel._capacity := capacity |}.

Definition update (weather : WeatherRecord) : M t unit :=
  ret tt.

(** Inherited. *)
Definition get_current_capacity : M t R :=
  BaseHabitatModel.get_current_capacity.

End ConstantHabitatModel.

(** ** [class TemporaryRainfallHabitatModel(BaseHabitatModel)] *)

Module TemporaryRainfallHabitatModel.

Record t : Type := mk {
  base : BaseHabitatModel.t;
  accumulation_scale : R;
  evaporation_scale : R
}.

Definition _capacity (self : t) : R :=
  BaseHabitatModel._capacity (base self).

Definition set_capacity (self : t) (c : R) : t :=
  {| base := {| BaseHabitatModel._capacity := c |};
     accumulation_scale := accumulation_scale self;
     evaporation_scale := evaporation_scale self |}.

Definition __init__ (accumulation_scale evaporation_scale : R) : t :=
  {| base := BaseHabitatModel.__init__;
     accumulation_scale := accumulation_scale;
     evaporation_scale := evaporation_scale |}.

(** The gas constant is [R] in the source; it is [Rgas] here, [R] being
    the type of real numbers.  The tuple [F] is read by position. *)
Definition evaporation_rate (weather : WeatherRecord) : M t R :=
  let Rgas := 8.31446 in
  let Mw := 0.01801 in
  F2 <- lift (py_div Mw (2 * math_pi * Rgas)) ;;
  let F := (-5628.1, 5.1e11, F2) in
  let Tk := mean_temp_C weather + 273.15 in
  a <- lift (py_div (fst (fst F)) Tk) ;;
  b <- lift (py_div (snd F) Tk) ;;
  s <- lift (math_sqrt b) ;;
  ret (math_exp a * snd (fst F) * s * (1.0 - rel_humid weather)).

Definition update (weather : WeatherRecord) : M t unit :=
  modify (fun self =>
    set_capacity self
      (_capacity self + rain_mm weather * accumulation_scale self)) ;;
  rate <- evaporation_rate weather ;;
  modify (fun self =>
    set_capacity self
      (_capacity self - _capacity self * evaporation_scale self * rate)) ;;
  self <- get ;;
  if Rlt_dec (_capacity self) 0
  then modify (fun self => set_capacity self 0)
  else ret tt.

(** Inherited. *)
Definition get_current_capacity : M t R :=
  zoom base (fun self b => {| base := b;
                              accumulation_scale := accumulation_scale self;
                              evaporation_scale := evaporation_scale self |})
    BaseHabitatModel.get_current_capacity.

End TemporaryRainfallHabitatModel.

(** ** [class SeasonalStreamHabitatModel(TemporaryRainfallHabitatModel)] *)

Module SeasonalStreamHabitatModel.

Record t : Type := mk {
  rainfall : TemporaryRainfallHabitatModel.t;
  _stream_flow : R;
  stream_decay_scale : R;
  flow_threshold : R;
  max_capacity : R
}.

Definition _capacity (self : t) : R :=
  TemporaryRainfallHabitatModel._capacity (rainfall self).

Definition accumulation_scale (self : t) : R :=
  TemporaryRainfallHabitatModel.accumulation_scale (rainfall self).

Definition evaporation_scale (self : t) : R :=
  TemporaryRainfallHabitatModel.evaporation_scale (rainfall self).

Definition set_rainfall (self : t) (p : TemporaryRainfallHabitatModel.t) : t :=
  {| rainfall := p;
     _stream_flow := _stream_flow self;
     stream_decay_scale := stream_decay_scale self;
     flow_threshold := flow_threshold self;
     max_capacity := max_capacity self |}.

Definition set_capacity (self : t) (c : R) : t :=
  set_rainfall self
    (TemporaryRainfallHabitatModel.set_capacity (rainfall self) c).

Definition set_stream_flow (self : t) (f : R) : t :=
  {| rainfall := rainfall self;
     _stream_flow := f;
     stream_decay_scale := stream_decay_scale self;
     flow_threshold := flow_threshold self;
     max_capacity := max_capacity self |}.

Definition __init__ (accumulation_scale evaporation_scale
    stream_decay_scale flow_threshold max_capacity : R) : t :=
  {| rainfall :=
       TemporaryRainfallHabitatModel.__init__
         accumulation_scale evaporation_scale;
     _stream_flow := 0;
     stream_decay_scale := stream_decay_scale;
     flow_threshold := flow_threshold;
     max_capacity := max_capacity |}.

Definition update (weather : WeatherRecord) : M t unit :=
  zoom rainfall set_rainfall (TemporaryRainfallHabitatModel.update weather) ;;
  self <- get ;;
  (if Rgt_dec (_capacity self) (max_capacity self)
   then modify (fun self => set_capacity self (max_capacity self))
   else ret tt) ;;
  modify (fun self =>
    set_stream_flow self (_stream_flow self + rain_mm weather)) ;;
  modify (fun self =>
    set_stream_flow self
      (_stream_flow self - _stream_flow self * stream_decay_scale self)).

(** The override. *)
Definition get_current_capacity : M t R :=
  self <- get ;;
  stream_flow_reduction <-
    lift (py_div (flow_threshold self)
            (_stream_flow self + flow_threshold self)) ;;
  ret (_capacity self * stream_flow_reduction).

End SeasonalStreamHabitatModel.

(** ** Descriptions used in the statements *)

(** Outcome of [evaporation_rate] by the sign of the Kelvin temperature: the
    division raises at zero and the square root raises below it. *)
Definition rate_outcome (weather : WeatherRecord) : outcome R :=
  let Tk := mean_temp_C weather + 273.15 in
  if Req_dec_T Tk 0 then Raises ZeroDivisionError
  else if Rlt_dec Tk 0 then Raises ValueError
  else Returns (exp (-5628.1 / Tk) * 5.1e11
                * sqrt (0.01801 / (2 * PI * 8.31446) / Tk)
                * (1 - rel_humid weather)).

(** A weather record whose temperature is above absolute zero. *)
Definition above_absolute_zero (weather : WeatherRecord) : Prop :=
  0 < mean_temp_C weather + 273.15.

(** A warm, humid day with 10 mm of rain, and the models of the scenarios. *)
Definition rainy_day : WeatherRecord :=
  {| mean_temp_C := 25; rel_humid := 0.8; rain_mm := 10 |}.

Definition rainfall_model : TemporaryRainfallHabitatModel.t :=
  TemporaryRainfallHabitatModel.__init__ 1.0 0.1.

Definition stream_model : SeasonalStreamHabitatModel.t :=
  SeasonalStreamHabitatModel.__init__ 1.0 0.0 0.5 5 100.

(** A dry day and a day of light rain, at the same temperature and
    humidity. *)
Definition dry_day : WeatherRecord :=
  {| mean_temp_C := 25; rel_humid := 0.5; rain_mm := 0 |}.

Definition light_rain_day : WeatherRecord :=
  {| mean_temp_C := 25; rel_humid := 0.5; rain_mm := 5 |}.






Definition negative_cap_model : SeasonalStreamHabitatModel.t :=
  SeasonalStreamHabitatModel.__init__ 1.0 0.0 0.5 5 (-1).

(** A day at absolute zero and a day below it. *)
Definition absolute_zero_day : WeatherRecord :=
  {| mean_temp_C := -273.15; rel_humid := 0.5; rain_mm := 10 |}.

Definition impossible_day : WeatherRecord :=
  {| mean_temp_C := -300; rel_humid := 0.5; rain_mm := 10 |}.

(** A saturated day: the relative humidity is 1. *)
Definition saturated_day : WeatherRecord :=
  {| mean_temp_C := 25; rel_humid := 1; rain_mm := 10 |}.

(** A stream model whose [flow_threshold] is zero. *)
Definition zero_threshold_model : SeasonalStreamHabitatModel.t :=
  SeasonalStreamHabitatModel.__init__ 1.0 0.1 0.5 0 100.

(** ** The arithmetic of the rainfall model in binary64

    The same assignments as [TemporaryRainfallHabitatModel.update] and the
    same expression as [evaporation_rate], on IEEE-754 binary64 numbers, for
    temperatures above absolute zero.  [exp_value] stands for the value of
    [math.exp (F[0] / Tk)], the one operation that is not available on
    primitive floats. *)

Module Binary64.
Import PrimFloat.
#[local] Set Warnings "-inexact-float".
Local Open Scope float_scope.

Definition math_pi : float := 0x1.921fb54442d18p+1.

Definition evaporation_rate (exp_value mean_temp_C rel_humid : float)
    : float :=
  let Rgas := 8.31446 in
  let Mw := 0.01801 in
  let F2 := Mw / (2 * math_pi * Rgas) in
  let Tk := mean_temp_C + 273.15 in
  exp_value * 5.1e11 * sqrt (F2 / Tk) * (1.0 - rel_humid).

Definition update (capacity accumulation_scale evaporation_scale : float)
    (rate rain_mm : float) : float :=
  let c1 := capacity + rain_mm * accumulation_scale in
  let c2 := c1 - c1 * evaporation_scale * rate in
  if c2 <? 0 then 0 else c2.

(** [math.exp (-5628.1 / (25 + 273.15))], about 6.3378e-09. *)
Definition exp_value_25C : float := 0x1.b3871d316cfccp-28.

End Binary64.

(** * Properties *)

(** ** Running computations *)

Lemma bind_returns {S A B : Type} (c : M S A) (k : A -> M S B)
    (s s' : S) (a : A) :
  c s = (Returns a, s') -> bind c k s = k a s'.
Proof. intros E. unfold bind. now rewrite E. Qed.

Lemma bind_raises {S A B : Type} (c : M S A) (k : A -> M S B)
    (s s' : S) (e : exn) :
  c s = (Raises e, s') -> bind c k s = (Raises e, s').
Proof. intros E. unfold bind. now rewrite E. Qed.

Lemma bind_returns_inv {S A B : Type} (c : M S A) (k : A -> M S B)
    (s s' : S) (b : B) :
  bind c k s = (Returns b, s') ->
  exists a s1, c s = (Returns a, s1) /\ k a s1 = (Returns b, s').
Proof.
  unfold bind. destruct (c s) as [[a | e] s1]; intros E.
  - now exists a, s1.
  - discriminate E.
Qed.

(** A property kept by every returning run of the loop body is kept by every
    returning run of the loop. *)
Lemma for_each_invariant {S W : Type} (body : W -> M S unit)
    (P : S -> Prop) :
  (forall w s s', P s -> body w s = (Returns tt, s') -> P s') ->
  forall ws s s', P s -> for_each body ws s = (Returns tt, s') -> P s'.
Proof.
  intros step ws. induction ws as [| w ws IH]; intros s s' Hs E.
  - cbn in E. injection E as <-. exact Hs.
  - cbn in E. apply bind_returns_inv in E as ([] & s1 & E1 & E2).
    eapply IH; [eapply step; eassumption | exact E2].
Qed.

(** The last call of a returning run. *)
Lemma for_each_last {S W : Type} (body : W -> M S unit) (ws : list W)
    (w : W) (s s' : S) :
  for_each body (ws ++ [w]) s = (Returns tt, s') ->
  exists s1, for_each body ws s = (Returns tt, s1) /\
             body w s1 = (Returns tt, s').
Proof.
  revert s. induction ws as [| w0 ws IH]; intros s E.
  - cbn in E. apply bind_returns_inv in E as ([] & s1 & E1 & E2).
    cbn in E2. injection E2 as <-. now exists s.
  - cbn in E. apply bind_returns_inv in E as ([] & s1 & E1 & E2).
    destruct (IH _ E2) as (s2 & E3 & E4).
    exists s2. split; [| exact E4].
    cbn. now rewrite (bind_returns _ _ _ _ _ E1).
Qed.

Lemma for_each_one {S W : Type} (body : W -> M S unit) (w : W) (s s' : S) :
  body w s = (Returns tt, s') -> for_each body [w] s = (Returns tt, s').
Proof. intros E. cbn. now rewrite (bind_returns _ _ _ _ _ E). Qed.

(** A loop whose body returns on every item of the list returns. *)
Lemma for_each_returns {S W : Type} (body : W -> M S unit) (P : W -> Prop) :
  (forall w s, P w -> exists s', body w s = (Returns tt, s')) ->
  forall ws s, Forall P ws -> exists s', for_each body ws s = (Returns tt, s').
Proof.
  intros step ws. induction ws as [| w ws IH]; intros s HP.
  - now exists s.
  - inversion HP as [| ? ? Hw Hws]; subst.
    destruct (step w s Hw) as [s1 E1].
    destruct (IH s1 Hws) as [s' E']. exists s'.
    cbn. now rewrite (bind_returns _ _ _ _ _ E1).
Qed.

(** ** Division and square root *)

Lemma py_div_returns (x y : R) : y <> 0 -> py_div x y = Returns (x / y).
Proof. intros H. unfold py_div. now destruct (Req_dec_T y 0). Qed.

Lemma py_div_raises (x : R) : py_div x 0 = Raises ZeroDivisionError.
Proof. unfold py_div. now destruct (Req_dec_T 0 0). Qed.

Lemma math_sqrt_returns (x : R) : 0 <= x -> math_sqrt x = Returns (sqrt x).
Proof. intros H. unfold math_sqrt. destruct (Rlt_dec x 0); [lra | easy]. Qed.

Lemma math_sqrt_raises (x : R) : x < 0 -> math_sqrt x = Raises ValueError.
Proof. intros H. unfold math_sqrt. destruct (Rlt_dec x 0); [easy | lra]. Qed.

(** ** The base class *)

Module BaseProperties.
Import BaseHabitatModel.

(** The body of the abstract [update], when it runs (on an instance of a
    subclass, or where the interpreter lets the base class be instantiated),
    returns and changes nothing: it holds no [raise]. *)
Lemma base_update_eq (weather : WeatherRecord) (self : t) :
  update weather self = (Returns tt, self).
Proof. reflexivity. Qed.

Lemma base_get_current_capacity_eq (self : t) :
  get_current_capacity self = (Returns (_capacity self), self).
Proof. reflexivity. Qed.

(** C9.  The claim is that [update], called on an instance of the abstract
    base class itself, raises an unimplemented-operation fault.  The code
    does not: on a constructed [BaseHabitatModel], and on every state,
    [update] returns, raises nothing and leaves the capacity as it was. *)
Theorem base_update_returns_silently (weather : WeatherRecord) :
  update weather __init__ = (Returns tt, __init__) /\
  (forall self : t,
     fst (update weather self) = Returns tt /\
     _capacity (snd (update weather self)) = _capacity self) /\
  ~ (exists (e : exn) (self' : t),
       update weather __init__ = (Raises e, self')).
Proof.
  split; [reflexivity |]. split; [now split |].
  intros (e & self' & E). discriminate E.
Qed.

End BaseProperties.

(** ** The rainfall model *)

Module RainfallProperties.
Import TemporaryRainfallHabitatModel.

(** The third constant of the tuple [F] is positive. *)
Lemma F2_pos : 0 < 0.01801 / (2 * PI * 8.31446).
Proof.
  pose proof PI_RGT_0 as Hpi.
  apply Rdiv_lt_0_compat; lra.
Qed.

Lemma evaporation_rate_eq (weather : WeatherRecord) (self : t) :
  evaporation_rate weather self = (rate_outcome weather, self).
Proof.
  pose proof F2_pos as HF. pose proof PI_RGT_0 as Hpi.
  unfold evaporation_rate, rate_outcome, bind, lift, ret, math_pi, math_exp.
  rewrite (py_div_returns 0.01801) by lra.
  cbv zeta. cbn [fst snd]. unfold py_div.
  set (Tk := mean_temp_C weather + 273.15).
  destruct (Req_dec_T Tk 0) as [E | E]; [reflexivity |].
  destruct (Rlt_dec Tk 0) as [L | L].
  - rewrite math_sqrt_raises; [reflexivity |].
    apply Ropp_lt_cancel. rewrite Ropp_0, <- Rdiv_opp_r.
    apply Rdiv_lt_0_compat; lra.
  - rewrite math_sqrt_returns.
    + do 2 f_equal. lra.
    + apply Rlt_le, Rdiv_lt_0_compat; lra.
Qed.

Lemma rate_outcome_returns (weather : WeatherRecord) :
  above_absolute_zero weather ->
  rate_outcome weather =
  Returns (exp (-5628.1 / (mean_temp_C weather + 273.15)) * 5.1e11
           * sqrt (0.01801 / (2 * PI * 8.31446)
                   / (mean_temp_C weather + 273.15))
           * (1 - rel_humid weather)).
Proof.
  unfold above_absolute_zero, rate_outcome. intros H. cbv zeta.
  destruct (Req_dec_T _ 0); [lra |].
  destruct (Rlt_dec _ 0); [lra | reflexivity].
Qed.

Lemma rate_outcome_raises (weather : WeatherRecord) :
  ~ above_absolute_zero weather ->
  exists e, rate_outcome weather = Raises e.
Proof.
  unfold above_absolute_zero, rate_outcome. intros H. cbv zeta.
  destruct (Req_dec_T _ 0); [now eexists |].
  destruct (Rlt_dec _ 0); [now eexists | lra].
Qed.


(** The whole behaviour of [update]: the three assignments when the rate is
    computed, the first assignment alone when computing the rate raises. *)
Lemma rainfall_update_eq (weather : WeatherRecord) (self : t) :
  update weather self =
  let c1 := _capacity self + rain_mm weather * accumulation_scale self in
  match rate_outcome weather with
  | Returns rate =>
      let c2 := c1 - c1 * evaporation_scale self * rate in
      (Returns tt, set_capacity self (if Rlt_dec c2 0 then 0 else c2))
  | Raises e => (Raises e, set_capacity self c1)
  end.
Proof.
  unfold update, bind at 1. unfold modify at 1.
  unfold bind at 1. rewrite evaporation_rate_eq.
  destruct (rate_outcome weather) as [rate | e]; [| reflexivity].
  unfold bind, modify, get, ret. cbn.
  destruct (Rlt_dec _ 0); reflexivity.
Qed.

Lemma rainfall_update_returns (weather : WeatherRecord) (self : t) :
  above_absolute_zero weather ->
  exists self', update weather self = (Returns tt, self').
Proof.
  intros H. rewrite rainfall_update_eq, (rate_outcome_returns _ H). cbv zeta.
  now eexists.
Qed.

Lemma rainfall_update_raises (weather : WeatherRecord) (self : t) :
  ~ above_absolute_zero weather ->
  exists e,
    update weather self =
    (Raises e,
     set_capacity self
       (_capacity self + rain_mm weather * accumulation_scale self)).
Proof.
  intros H. rewrite rainfall_update_eq.
  destruct (rate_outcome_raises _ H) as [e ->]. now exists e.
Qed.


(** C1. A call [update weather] on which [evaporation_rate weather] gives
    [rate] transforms the stored capacity [c] in three steps: [c] is
    increased by [rain_mm * accumulation_scale]; the result [c1] is decreased
    by [c1 * evaporation_scale * rate]; a negative result is replaced by
    [0].  The call returns, the capacity it leaves is this value, and no
    other attribute of the model is changed. *)
Theorem update_three_steps (self : t) (weather : WeatherRecord) (rate : R) :
  evaporation_rate weather self = (Returns rate, self) ->
  let c := _capacity self in
  let c1 := c + rain_mm weather * accumulation_scale self in
  let c2 := c1 - c1 * evaporation_scale self * rate in
  let c3 := if Rlt_dec c2 0 then 0 else c2 in
  update weather self = (Returns tt, set_capacity self c3) /\
  fst (update weather self) = Returns tt /\
  _capacity (snd (update weather self)) = c3 /\
  accumulation_scale (snd (update weather self)) = accumulation_scale self /\
  evaporation_scale (snd (update weather self)) = evaporation_scale self.
Proof.
  intros E. rewrite evaporation_rate_eq in E.
  injection E as E. cbv zeta.
  rewrite rainfall_update_eq, E. cbv zeta. cbn [fst snd].
  repeat split.
Qed.

Lemma update_three_steps_witness :
  let rate :=
    exp (-5628.1 / (25 + 273.15)) * 5.1e11
    * sqrt (0.01801 / (2 * PI * 8.31446) / (25 + 273.15)) * (1 - 0.8) in
  let c1 := 0 + 10 * 1.0 in
  let c2 := c1 - c1 * 0.1 * rate in
  update rainy_day rainfall_model =
  (Returns tt, set_capacity rainfall_model (if Rlt_dec c2 0 then 0 else c2))
  /\ _capacity (snd (update rainy_day rainfall_model))
     = (if Rlt_dec c2 0 then 0 else c2).
Proof.
  intros rate c1 c2.
  refine ((fun H => conj (proj1 H) (proj1 (proj2 (proj2 H)))) _).
  apply (update_three_steps rainfall_model rainy_day rate).
  rewrite evaporation_rate_eq, rate_outcome_returns.
  - reflexivity.
  - unfold above_absolute_zero, rainy_day. cbn. lra.
Defined.

(** C2. With [Tk = mean_temp_C + 273.15], [A = -5628.1], [B = 5.1e11] and
    [C = Mw / (2 * pi * R)], where [R = 8.31446] and [Mw = 0.01801], the
    value [evaporation_rate] returns is exactly
    [exp (A / Tk) * B * sqrt (C / Tk) * (1 - rel_humid)]; it returns for
    every temperature above absolute zero.  The function is pure: its
    outcome is the same on every model state, and it leaves the state as it
    was. *)
Theorem evaporation_rate_formula (self : t) (weather : WeatherRecord) :
  let Tk := mean_temp_C weather + 273.15 in
  let A := -5628.1 in
  let B := 5.1e11 in
  let Rgas := 8.31446 in
  let Mw := 0.01801 in
  let C := Mw / (2 * PI * Rgas) in
  let rate := exp (A / Tk) * B * sqrt (C / Tk) * (1 - rel_humid weather) in
  (0 < Tk -> evaporation_rate weather self = (Returns rate, self)) /\
  (forall r self',
     evaporation_rate weather self = (Returns r, self') -> r = rate) /\
  (forall other : t,
     fst (evaporation_rate weather other)
     = fst (evaporation_rate weather self)) /\
  snd (evaporation_rate weather self) = self.
Proof.
  cbv zeta. repeat split.
  - intros H. rewrite evaporation_rate_eq, rate_outcome_returns; easy.
  - intros r self' E. rewrite evaporation_rate_eq in E.
    injection E as E _. unfold rate_outcome in E. cbv zeta in E.
    destruct (Req_dec_T _ 0); [discriminate E |].
    destruct (Rlt_dec _ 0); [discriminate E |].
    now injection E as <-.
  - intros other. now rewrite !evaporation_rate_eq.
  - now rewrite evaporation_rate_eq.
Qed.

Lemma evaporation_rate_formula_witness :
  evaporation_rate rainy_day rainfall_model =
  (Returns (exp (-5628.1 / (25 + 273.15)) * 5.1e11
            * sqrt (0.01801 / (2 * PI * 8.31446) / (25 + 273.15))
            * (1 - 0.8)),
   rainfall_model).
Proof.
  apply (proj1 (evaporation_rate_formula rainfall_model rainy_day)).
  cbn. lra.
Defined.

(** Every returning [update] leaves a capacity that is not negative. *)
Lemma rainfall_update_nonnegative (weather : WeatherRecord) (self self' : t) :
  update weather self = (Returns tt, self') -> 0 <= _capacity self'.
Proof.
  rewrite rainfall_update_eq. cbv zeta.
  destruct (rate_outcome weather) as [rate | e]; [| discriminate].
  intros E. injection E as <-.
  destruct (Rlt_dec _ 0) as [L | L]; cbn; lra.
Qed.

(** [update], returning or raising, assigns to the capacity only. *)
Lemma rainfall_update_frame (weather : WeatherRecord) (self : t) :
  snd (update weather self)
  = set_capacity self (_capacity (snd (update weather self))).
Proof.
  rewrite rainfall_update_eq. cbv zeta.
  destruct (rate_outcome weather) as [rate | e]; reflexivity.
Qed.

Lemma rainfall_get_current_capacity_eq (self : t) :
  get_current_capacity self = (Returns (_capacity self), self).
Proof. now destruct self as [[c] a e]. Qed.







(** Every sequence of calls on days above absolute zero returns. *)
Lemma rainfall_run_returns (ws : list WeatherRecord) (self : t) :
  Forall above_absolute_zero ws ->
  exists self', for_each update ws self = (Returns tt, self').
Proof.
  apply (for_each_returns update above_absolute_zero).
  intros w s H. now apply rainfall_update_returns.
Qed.

End RainfallProperties.

(** ** The constant model *)

Module ConstantProperties.
Import ConstantHabitatModel.

Lemma constant_update_eq (weather : WeatherRecord) (self : t) :
  update weather self = (Returns tt, self).
Proof. reflexivity. Qed.

Lemma constant_get_current_capacity_eq (self : t) :
  get_current_capacity self = (Returns (_capacity self), self).
Proof. reflexivity. Qed.

Lemma constant_for_each_update (ws : list WeatherRecord) (self : t) :
  for_each update ws self = (Returns tt, self).
Proof.
  induction ws as [| w ws IH]; [reflexivity |].
  cbn [for_each]. now rewrite (bind_returns _ _ _ _ _ (constant_update_eq w self)).
Qed.

(** C7. A [ConstantHabitatModel] constructed with capacity [c] is left as it
    was by [update], hence by every finite sequence of [update] calls, and
    [get_current_capacity] afterwards returns exactly [c]. *)
Theorem constant_capacity (c : R) (ws : list WeatherRecord) :
  (forall (w : WeatherRecord) (self : t), update w self = (Returns tt, self)) /\
  for_each update ws (__init__ c) = (Returns tt, __init__ c) /\
  (for_each update ws ;; get_current_capacity) (__init__ c)
  = (Returns c, __init__ c).
Proof.
  split; [exact constant_update_eq |]. split; [apply constant_for_each_update |].
  now rewrite (bind_returns _ _ _ _ _ (constant_for_each_update ws (__init__ c))).
Qed.

End ConstantProperties.

(** ** The seasonal-stream model *)

Module StreamProperties.
Import SeasonalStreamHabitatModel.

(** The whole behaviour of [update]: the parent's update, then the cap, then
    the two assignments to the stream flow; an exception of the parent's
    update ends the call. *)
Lemma stream_update_eq (weather : WeatherRecord) (self : t) :
  update weather self =
  match TemporaryRainfallHabitatModel.update weather (rainfall self) with
  | (Returns _, p) =>
      let p' :=
        if Rgt_dec (TemporaryRainfallHabitatModel._capacity p)
             (max_capacity self)
        then TemporaryRainfallHabitatModel.set_capacity p (max_capacity self)
        else p in
      let flow1 := _stream_flow self + rain_mm weather in
      let flow2 := flow1 - flow1 * stream_decay_scale self in
      (Returns tt, set_stream_flow (set_rainfall self p') flow2)
  | (Raises e, p) => (Raises e, set_rainfall self p)
  end.
Proof.
  unfold update, bind at 1. unfold zoom.
  destruct (TemporaryRainfallHabitatModel.update weather (rainfall self))
    as [[[] | e] p]; [| reflexivity].
  unfold bind, get, modify, ret. cbn.
  destruct (Rgt_dec _ _); reflexivity.
Qed.

Lemma stream_get_current_capacity_eq (self : t) :
  get_current_capacity self =
  match py_div (flow_threshold self) (_stream_flow self + flow_threshold self)
  with
  | Returns reduction => (Returns (_capacity self * reduction), self)
  | Raises e => (Raises e, self)
  end.
Proof.
  unfold get_current_capacity, bind, get, lift, ret.
  now destruct (py_div _ _).
Qed.

Lemma stream_update_returns (weather : WeatherRecord) (self : t) :
  above_absolute_zero weather ->
  exists self', update weather self = (Returns tt, self').
Proof.
  intros H. rewrite stream_update_eq.
  destruct (RainfallProperties.rainfall_update_returns weather (rainfall self) H)
    as [p ->].
  now eexists.
Qed.

(** [update], returning or raising, assigns to the capacity and to the
    stream flow only. *)
Lemma stream_update_frame (weather : WeatherRecord) (self : t) :
  snd (update weather self)
  = set_stream_flow
      (set_capacity self (_capacity (snd (update weather self))))
      (_stream_flow (snd (update weather self))).
Proof.
  rewrite stream_update_eq.
  pose proof (RainfallProperties.rainfall_update_frame weather (rainfall self)) as F.
  destruct (TemporaryRainfallHabitatModel.update weather (rainfall self))
    as [[[] | e] [[c] a' e']]; cbn in F; injection F as -> ->.
  - cbv zeta. destruct (Rgt_dec _ _); reflexivity.
  - reflexivity.
Qed.

(** A returning [update] leaves the capacity at or below [max_capacity]. *)
Lemma stream_update_capped (weather : WeatherRecord) (self self' : t) :
  update weather self = (Returns tt, self') ->
  _capacity self' <= max_capacity self' /\
  max_capacity self' = max_capacity self.
Proof.
  rewrite stream_update_eq.
  destruct (TemporaryRainfallHabitatModel.update weather (rainfall self))
    as [[[] | e] p]; [| discriminate].
  cbv zeta. intros E. injection E as <-.
  destruct (Rgt_dec _ _) as [G | G]; cbn; unfold _capacity; cbn; lra.
Qed.

(** A returning [update] of a model whose cap is not negative leaves a
    capacity that is not negative. *)
Lemma stream_update_nonnegative (weather : WeatherRecord) (self self' : t) :
  0 <= max_capacity self ->
  update weather self = (Returns tt, self') ->
  0 <= _capacity self' /\ max_capacity self' = max_capacity self.
Proof.
  intros Hmax. rewrite stream_update_eq.
  pose proof (RainfallProperties.rainfall_update_nonnegative weather (rainfall self))
    as N.
  destruct (TemporaryRainfallHabitatModel.update weather (rainfall self))
    as [[[] | e] p]; [| discriminate].
  specialize (N p eq_refl).
  cbv zeta. intros E. injection E as <-.
  destruct (Rgt_dec _ _) as [G | G]; cbn; unfold _capacity; cbn; lra.
Qed.

(** Every sequence of calls on days above absolute zero returns. *)
Lemma stream_run_returns (ws : list WeatherRecord) (self : t) :
  Forall above_absolute_zero ws ->
  exists self', for_each update ws self = (Returns tt, self').
Proof.
  apply (for_each_returns update above_absolute_zero).
  intros w s H. now apply stream_update_returns.
Qed.

(** A call on a day at or below absolute zero raises inside the parent's
    update: the cap and the stream flow are not reached. *)
Lemma stream_update_raises (weather : WeatherRecord) (self : t) :
  ~ above_absolute_zero weather ->
  exists e,
    update weather self =
    (Raises e,
     set_capacity self
       (_capacity self + rain_mm weather * accumulation_scale self)).
Proof.
  intros H. rewrite stream_update_eq.
  destruct (RainfallProperties.rainfall_update_raises weather (rainfall self) H)
    as [e ->].
  now exists e.
Qed.

(** One update of the scenario's model with 10 mm of rain. *)
Lemma scenario_update (T h : R) :
  -273.15 < T ->
  update {| mean_temp_C := T; rel_humid := h; rain_mm := 10 |} stream_model
  = (Returns tt, set_stream_flow (set_capacity stream_model 10) 5).
Proof.
  intros HT. rewrite stream_update_eq, RainfallProperties.rainfall_update_eq.
  rewrite RainfallProperties.rate_outcome_returns
    by (unfold above_absolute_zero; cbn; lra).
  cbn.
  destruct (Rlt_dec _ 0) as [L | L]; [exfalso; lra |].
  destruct (Rgt_dec _ _) as [G | G]; [exfalso; cbn in G; lra |].
  unfold set_stream_flow, set_capacity, set_rainfall,
    TemporaryRainfallHabitatModel.set_capacity. cbn.
  do 2 f_equal; [do 2 f_equal |]; lra.
Qed.

(** C3. [update] runs, in this order, the whole update of the rainfall model
    on the capacity, the cap at [max_capacity], and the two assignments to
    [stream_flow] (plus [rain_mm], then minus [stream_flow *
    stream_decay_scale]).  The model constructed with
    [accumulation_scale = 1.0], [evaporation_scale = 0.0],
    [stream_decay_scale = 0.5], [flow_threshold = 5] and
    [max_capacity = 100] has, after one update with [rain_mm = 10],
    capacity 10 and stream flow 5, and its [get_current_capacity] returns
    5. *)
Theorem stream_update_order :
  (forall (self : t) (weather : WeatherRecord)
          (p : TemporaryRainfallHabitatModel.t),
     TemporaryRainfallHabitatModel.update weather (rainfall self)
     = (Returns tt, p) ->
     let capped :=
       if Rgt_dec (TemporaryRainfallHabitatModel._capacity p)
            (max_capacity self)
       then TemporaryRainfallHabitatModel.set_capacity p (max_capacity self)
       else p in
     let flow1 := _stream_flow self + rain_mm weather in
     let flow2 := flow1 - flow1 * stream_decay_scale self in
     update weather self
     = (Returns tt, set_stream_flow (set_rainfall self capped) flow2)) /\
  (forall T h : R,
     -273.15 < T ->
     exists self',
       update {| mean_temp_C := T; rel_humid := h; rain_mm := 10 |}
         (__init__ 1.0 0.0 0.5 5 100)
       = (Returns tt, self') /\
       _capacity self' = 10 /\
       _stream_flow self' = 5 /\
       get_current_capacity self' = (Returns 5, self')).
Proof.
  split.
  - intros self weather p E. cbv zeta. now rewrite stream_update_eq, E.
  - intros T h HT. eexists. split; [apply (scenario_update T h HT) |].
    split; [reflexivity |]. split; [reflexivity |].
    rewrite stream_get_current_capacity_eq. cbn.
    rewrite py_div_returns by lra.
    do 2 f_equal. lra.
Qed.

Lemma stream_update_order_witness :
  exists self',
    update rainy_day stream_model = (Returns tt, self') /\
    _capacity self' = 10 /\
    _stream_flow self' = 5 /\
    get_current_capacity self' = (Returns 5, self').
Proof.
  apply (proj2 stream_update_order 25 0.8). lra.
Defined.

(** C4. [get_current_capacity] returns exactly
    [capacity * (flow_threshold / (stream_flow + flow_threshold))].  When
    [stream_flow >= 0] and [flow_threshold > 0], the factor lies in (0, 1],
    the returned value is at most the stored capacity if that is not
    negative, and it is the stored capacity when [stream_flow = 0]. *)
Theorem suppressed_capacity (self : t) :
  let suppression :=
    flow_threshold self / (_stream_flow self + flow_threshold self) in
  (_stream_flow self + flow_threshold self <> 0 ->
   get_current_capacity self = (Returns (_capacity self * suppression), self))
  /\
  (0 <= _stream_flow self -> 0 < flow_threshold self ->
   get_current_capacity self = (Returns (_capacity self * suppression), self)
   /\ 0 < suppression <= 1
   /\ (0 <= _capacity self -> _capacity self * suppression <= _capacity self)
   /\ (_stream_flow self = 0 -> _capacity self * suppression = _capacity self)).
Proof.
  cbv zeta.
  assert (Hret : _stream_flow self + flow_threshold self <> 0 ->
            get_current_capacity self
            = (Returns (_capacity self
                        * (flow_threshold self
                           / (_stream_flow self + flow_threshold self))),
               self)).
  { intros H. now rewrite stream_get_current_capacity_eq, py_div_returns. }
  split; [exact Hret |].
  intros Hf Ht.
  set (f := _stream_flow self) in *. set (th := flow_threshold self) in *.
  assert (Hpos : 0 < f + th) by lra.
  assert (Hs : 0 < th / (f + th) <= 1).
  { split.
    - now apply Rdiv_lt_0_compat.
    - apply Rmult_le_reg_r with (f + th); [exact Hpos |].
      unfold Rdiv. rewrite Rmult_assoc, Rinv_l by lra. lra. }
  split; [apply Hret; lra |]. split; [exact Hs |]. split.
  - intros Hc. nra.
  - intros H0. rewrite H0, Rplus_0_l. unfold Rdiv. rewrite Rinv_r by lra. lra.
Qed.

Lemma suppressed_capacity_witness :
  let self := set_stream_flow (set_capacity stream_model 10) 5 in
  get_current_capacity self = (Returns (10 * (5 / (5 + 5))), self)
  /\ 0 < 5 / (5 + 5) <= 1
  /\ (0 <= 10 -> 10 * (5 / (5 + 5)) <= 10)
  /\ (5 = 0 -> 10 * (5 / (5 + 5)) = 10).
Proof.
  intros self.
  apply (proj2 (suppressed_capacity self)); cbn; lra.
Defined.

(** C5, as amended.  After every sequence of returning [update] calls from
    construction, the stored capacity of a rainfall model is not negative,
    and so is the stored capacity of a stream model whose [max_capacity] is
    not negative. *)
Theorem capacity_nonnegative :
  (forall (a e : R) (ws : list WeatherRecord)
          (self' : TemporaryRainfallHabitatModel.t),
     for_each TemporaryRainfallHabitatModel.update ws
       (TemporaryRainfallHabitatModel.__init__ a e)
     = (Returns tt, self') ->
     0 <= TemporaryRainfallHabitatModel._capacity self') /\
  (forall (a e d ft mx : R) (ws : list WeatherRecord) (self' : t),
     0 <= mx ->
     for_each update ws (__init__ a e d ft mx) = (Returns tt, self') ->
     0 <= _capacity self').
Proof.
  split.
  - intros a e ws self'.
    apply (for_each_invariant TemporaryRainfallHabitatModel.update
             (fun s => 0 <= TemporaryRainfallHabitatModel._capacity s)).
    + intros w s s' _. apply RainfallProperties.rainfall_update_nonnegative.
    + cbn. lra.
  - intros a e d ft mx ws self' Hmx E.
    apply (for_each_invariant update
             (fun s => 0 <= _capacity s /\ 0 <= max_capacity s)) in E.
    + apply E.
    + intros w s s' [_ Hm] Es.
      destruct (stream_update_nonnegative w s s' Hm Es) as [Hc ->]. now split.
    + cbn. split; [unfold _capacity; cbn |]; lra.
Qed.

Lemma capacity_nonnegative_witness :
  (exists self',
     for_each TemporaryRainfallHabitatModel.update [rainy_day] rainfall_model
     = (Returns tt, self') /\
     0 <= TemporaryRainfallHabitatModel._capacity self') /\
  0 <= _capacity (set_stream_flow (set_capacity stream_model 10) 5).
Proof.
  assert (Hday : above_absolute_zero rainy_day)
    by (unfold above_absolute_zero; cbn; lra).
  destruct capacity_nonnegative as [Hrain Hstream]. split.
  - destruct (RainfallProperties.rainfall_update_returns rainy_day rainfall_model Hday)
      as [self' E].
    exists self'. split; [exact (for_each_one _ _ _ _ E) |].
    exact (Hrain 1.0 0.1 [rainy_day] self' (for_each_one _ _ _ _ E)).
  - apply (Hstream 1.0 0.0 0.5 5 100 [rainy_day]); [lra |].
    apply for_each_one, (scenario_update 25 0.8). lra.
Defined.

(** C5 as stated fails for a stream model whose [max_capacity] is negative:
    constructed with cap -1, one update on a dry day leaves capacity -1. *)
Lemma capacity_negative_under_negative_cap :
  for_each update [dry_day] negative_cap_model
  = (Returns tt, set_stream_flow (set_capacity negative_cap_model (-1)) 0) /\
  _capacity (set_stream_flow (set_capacity negative_cap_model (-1)) 0) < 0.
Proof.
  split; [| cbn; lra].
  apply for_each_one.
  rewrite stream_update_eq, RainfallProperties.rainfall_update_eq.
  rewrite RainfallProperties.rate_outcome_returns
    by (unfold above_absolute_zero; cbn; lra).
  cbn.
  destruct (Rlt_dec _ 0) as [L | L]; [exfalso; lra |].
  destruct (Rgt_dec _ _) as [G | G]; [| exfalso; cbn in G; lra].
  unfold set_stream_flow, set_capacity, set_rainfall,
    TemporaryRainfallHabitatModel.set_capacity. cbn.
  do 2 f_equal. lra.
Qed.

(** C6. After every returning [update] call of every sequence of calls from
    construction, the stored capacity is at most [max_capacity], which is
    the value given at construction. *)
Theorem capacity_capped (a e d ft mx : R) (ws : list WeatherRecord)
    (w : WeatherRecord) (self' : t) :
  for_each update (ws ++ [w]) (__init__ a e d ft mx) = (Returns tt, self') ->
  _capacity self' <= max_capacity self' /\ max_capacity self' = mx.
Proof.
  intros E. apply for_each_last in E as (s1 & E1 & E2).
  apply stream_update_capped in E2 as [Hc Hm]. split; [exact Hc |].
  rewrite Hm.
  apply (for_each_invariant update (fun s => max_capacity s = mx)) in E1.
  - exact E1.
  - intros w0 s s' Hs Es. apply stream_update_capped in Es as [_ ->]. exact Hs.
  - reflexivity.
Qed.

Lemma capacity_capped_witness :
  let self' := set_stream_flow (set_capacity stream_model 10) 5 in
  _capacity self' <= max_capacity self' /\ max_capacity self' = 100.
Proof.
  intros self'.
  apply (capacity_capped 1.0 0.0 0.5 5 100 [] rainy_day self').
  apply for_each_one, (scenario_update 25 0.8). lra.
Defined.

(** C10. [update] leaves the construction parameters as they were: it
    assigns to [_capacity] only in the rainfall model, and to [_capacity]
    and [_stream_flow] only in the stream model; in the constant model it
    assigns to nothing.  [get_current_capacity] leaves the whole state as it
    was, in each of the three models. *)
Theorem construction_parameters_kept :
  (forall (w : WeatherRecord) (self : TemporaryRainfallHabitatModel.t),
     let self' := snd (TemporaryRainfallHabitatModel.update w self) in
     TemporaryRainfallHabitatModel.accumulation_scale self'
     = TemporaryRainfallHabitatModel.accumulation_scale self /\
     TemporaryRainfallHabitatModel.evaporation_scale self'
     = TemporaryRainfallHabitatModel.evaporation_scale self /\
     self' = TemporaryRainfallHabitatModel.set_capacity self
               (TemporaryRainfallHabitatModel._capacity self')) /\
  (forall self : TemporaryRainfallHabitatModel.t,
     snd (TemporaryRainfallHabitatModel.get_current_capacity self) = self) /\
  (forall (w : WeatherRecord) (self : t),
     let self' := snd (update w self) in
     accumulation_scale self' = accumulation_scale self /\
     evaporation_scale self' = evaporation_scale self /\
     stream_decay_scale self' = stream_decay_scale self /\
     flow_threshold self' = flow_threshold self /\
     max_capacity self' = max_capacity self /\
     self' = set_stream_flow (set_capacity self (_capacity self'))
               (_stream_flow self')) /\
  (forall self : t, snd (get_current_capacity self) = self) /\
  (forall (w : WeatherRecord) (self : ConstantHabitatModel.t),
     snd (ConstantHabitatModel.update w self) = self /\
     snd (ConstantHabitatModel.get_current_capacity self) = self).
Proof.
  repeat apply conj.
  - intros w self self'.
    pose proof (RainfallProperties.rainfall_update_frame w self) as F.
    fold self' in F. split; [| split]; [| | exact F]; now rewrite F.
  - intros self. now rewrite RainfallProperties.rainfall_get_current_capacity_eq.
  - intros w self self'.
    pose proof (stream_update_frame w self) as F. fold self' in F.
    repeat split; [.. | exact F]; now rewrite F.
  - intros self. rewrite stream_get_current_capacity_eq. now destruct (py_div _ _).
  - intros w self. split; reflexivity.
Qed.

End StreamProperties.

(** * Further behaviour of the models *)

(** A property of the state kept by every returning run of the loop body on
    an admissible item is kept by every returning run of the loop over
    admissible items. *)
Lemma for_each_invariant_on {S W : Type} (body : W -> M S unit)
    (Q : W -> Prop) (P : S -> Prop) :
  (forall w s s', Q w -> P s -> body w s = (Returns tt, s') -> P s') ->
  forall ws s s',
    Forall Q ws -> P s -> for_each body ws s = (Returns tt, s') -> P s'.
Proof.
  intros step ws. induction ws as [| w ws IH]; intros s s' HQ Hs E.
  - cbn in E. injection E as <-. exact Hs.
  - inversion HQ as [| ? ? Hw Hws]; subst.
    cbn in E. apply bind_returns_inv in E as ([] & s1 & E1 & E2).
    eapply IH; [exact Hws | eapply step; eassumption | exact E2].
Qed.

(** ** The rainfall model: errors, evaporation, dry spells *)

Module RainfallBehaviour.
Import TemporaryRainfallHabitatModel.

(** The factor of the rate that does not depend on the humidity. *)
Lemma dry_rate_pos (Tk : R) :
  0 < Tk ->
  0 < exp (-5628.1 / Tk) * 5.1e11 * sqrt (0.01801 / (2 * PI * 8.31446) / Tk).
Proof.
  intros H. pose proof RainfallProperties.F2_pos as HF.
  apply Rmult_lt_0_compat; [apply Rmult_lt_0_compat |].
  - apply exp_pos.
  - lra.
  - apply sqrt_lt_R0. now apply Rdiv_lt_0_compat.
Qed.

Lemma rate_outcome_returns_inv (weather : WeatherRecord) (r : R) :
  rate_outcome weather = Returns r ->
  above_absolute_zero weather /\
  r = exp (-5628.1 / (mean_temp_C weather + 273.15)) * 5.1e11
      * sqrt (0.01801 / (2 * PI * 8.31446) / (mean_temp_C weather + 273.15))
      * (1 - rel_humid weather).
Proof.
  unfold rate_outcome, above_absolute_zero. cbv zeta.
  destruct (Req_dec_T _ 0) as [E | E]; [discriminate |].
  destruct (Rlt_dec _ 0) as [L | L]; [discriminate |].
  intros H. injection H as <-. split; [lra | reflexivity].
Qed.

Lemma evaporation_rate_returns_inv (weather : WeatherRecord) (self s : t)
    (r : R) :
  evaporation_rate weather self = (Returns r, s) ->
  rate_outcome weather = Returns r.
Proof.
  rewrite RainfallProperties.evaporation_rate_eq. now intros [= -> _].
Qed.

Lemma update_returns_inv (weather : WeatherRecord) (self self' : t) :
  update weather self = (Returns tt, self') ->
  exists rate,
    rate_outcome weather = Returns rate /\
    let c1 := _capacity self + rain_mm weather * accumulation_scale self in
    let c2 := c1 - c1 * evaporation_scale self * rate in
    self' = set_capacity self (if Rlt_dec c2 0 then 0 else c2).
Proof.
  rewrite RainfallProperties.rainfall_update_eq. cbv zeta.
  destruct (rate_outcome weather) as [rate | e]; [| discriminate].
  intros E. injection E as <-. now exists rate.
Qed.

(** X1. [evaporation_rate] returns exactly on the days above absolute zero.
    At absolute zero the first division raises [ZeroDivisionError]; below
    it the call raises as well.  In no case is the state changed. *)
Theorem evaporation_rate_domain (self : t) (weather : WeatherRecord) :
  let Tk := mean_temp_C weather + 273.15 in
  ((exists r, evaporation_rate weather self = (Returns r, self)) <-> 0 < Tk) /\
  (Tk = 0 ->
   evaporation_rate weather self = (Raises ZeroDivisionError, self)) /\
  (Tk < 0 -> exists e, evaporation_rate weather self = (Raises e, self)).
Proof.
  cbv zeta. rewrite RainfallProperties.evaporation_rate_eq.
  unfold rate_outcome. cbv zeta.
  destruct (Req_dec_T _ 0) as [E | E]; [| destruct (Rlt_dec _ 0) as [L | L]].
  - repeat split; try lra.
    intros [r H]. discriminate H.
  - repeat split; try lra.
    + intros [r H]. discriminate H.
    + intros _. now eexists.
  - repeat split; try lra.
    intros _. now eexists.
Qed.

Lemma evaporation_rate_domain_witness :
  evaporation_rate absolute_zero_day rainfall_model
  = (Raises ZeroDivisionError, rainfall_model)
  /\ (exists e,
        evaporation_rate impossible_day rainfall_model
        = (Raises e, rainfall_model))
  /\ (exists r,
        evaporation_rate rainy_day rainfall_model = (Returns r, rainfall_model)).
Proof.
  split; [| split].
  - apply (proj1 (proj2 (evaporation_rate_domain rainfall_model
                           absolute_zero_day))).
    cbn. lra.
  - apply (proj2 (proj2 (evaporation_rate_domain rainfall_model
                           impossible_day))).
    cbn. lra.
  - apply (proj1 (evaporation_rate_domain rainfall_model rainy_day)).
    cbn. lra.
Defined.

(** X2. An [update] on a day at or below absolute zero raises after its
    first assignment: the rainfall has been added to the capacity, nothing
    has evaporated, the capacity has not been clamped, and the two scales
    are as they were. *)
Theorem update_raises_after_accumulation (self : t) (weather : WeatherRecord) :
  mean_temp_C weather + 273.15 <= 0 ->
  exists e,
    update weather self =
    (Raises e,
     {| base := {| BaseHabitatModel._capacity :=
                     _capacity self
                     + rain_mm weather * accumulation_scale self |};
        accumulation_scale := accumulation_scale self;
        evaporation_scale := evaporation_scale self |}).
Proof.
  intros H. rewrite RainfallProperties.rainfall_update_eq. cbv zeta.
  destruct (RainfallProperties.rate_outcome_raises weather) as [e ->].
  - unfold above_absolute_zero. lra.
  - now exists e.
Qed.

Lemma update_raises_after_accumulation_witness :
  exists e,
    update impossible_day rainfall_model =
    (Raises e,
     {| base := {| BaseHabitatModel._capacity := 0 + 10 * 1.0 |};
        accumulation_scale := 1.0;
        evaporation_scale := 0.1 |}).
Proof.
  apply (update_raises_after_accumulation rainfall_model impossible_day).
  cbn. lra.
Defined.

(** X3. The rate has the sign of [1 - rel_humid]: positive below
    saturation, zero at saturation, negative above it. *)
Theorem evaporation_rate_sign (self : t) (weather : WeatherRecord) (r : R) :
  evaporation_rate weather self = (Returns r, self) ->
  (rel_humid weather < 1 -> 0 < r) /\
  (rel_humid weather = 1 -> r = 0) /\
  (1 < rel_humid weather -> r < 0).
Proof.
  intros E. apply evaporation_rate_returns_inv in E.
  apply rate_outcome_returns_inv in E as [Hz ->].
  pose proof (dry_rate_pos _ Hz) as Hp.
  set (P := exp _ * _ * sqrt _) in *.
  repeat split; intros H; nra.
Qed.

Lemma evaporation_rate_sign_witness :
  exists r,
    evaporation_rate rainy_day rainfall_model = (Returns r, rainfall_model) /\
    0 < r.
Proof.
  assert (Hday : above_absolute_zero rainy_day)
    by (unfold above_absolute_zero; cbn; lra).
  eexists. split.
  - rewrite RainfallProperties.evaporation_rate_eq,
      (RainfallProperties.rate_outcome_returns _ Hday). reflexivity.
  - apply (evaporation_rate_sign rainfall_model rainy_day).
    + rewrite RainfallProperties.evaporation_rate_eq,
        (RainfallProperties.rate_outcome_returns _ Hday). reflexivity.
    + cbn. lra.
Defined.

(** X4. At a fixed temperature the rate does not increase with the
    relative humidity: of two weather records with the same temperature,
    the one with the larger humidity gets the smaller or equal rate. *)
Theorem evaporation_rate_decreases_with_humidity
    (self : t) (w1 w2 : WeatherRecord) (r1 r2 : R) :
  mean_temp_C w1 = mean_temp_C w2 ->
  rel_humid w1 <= rel_humid w2 ->
  evaporation_rate w1 self = (Returns r1, self) ->
  evaporation_rate w2 self = (Returns r2, self) ->
  r2 <= r1.
Proof.
  intros Ht Hh E1 E2.
  apply evaporation_rate_returns_inv, rate_outcome_returns_inv in E1, E2.
  destruct E1 as [Hz ->]. destruct E2 as [_ ->]. rewrite <- Ht.
  pose proof (dry_rate_pos _ Hz) as Hp.
  set (P := exp _ * _ * sqrt _) in *. nra.
Qed.

Lemma evaporation_rate_decreases_with_humidity_witness :
  let rate (h : R) :=
    exp (-5628.1 / (25 + 273.15)) * 5.1e11
    * sqrt (0.01801 / (2 * PI * 8.31446) / (25 + 273.15)) * (1 - h) in
  rate 0.8 <= rate 0.5.
Proof.
  intros rate.
  apply (evaporation_rate_decreases_with_humidity rainfall_model
           dry_day rainy_day (rate 0.5) (rate 0.8)).
  - reflexivity.
  - cbn. lra.
  - rewrite RainfallProperties.evaporation_rate_eq,
      RainfallProperties.rate_outcome_returns; [reflexivity |].
    unfold above_absolute_zero. cbn. lra.
  - rewrite RainfallProperties.evaporation_rate_eq,
      RainfallProperties.rate_outcome_returns; [reflexivity |].
    unfold above_absolute_zero. cbn. lra.
Defined.

(** X6. Evaporation never adds capacity: when the capacity after the
    rainfall is not negative, the evaporation scale is not negative and the
    humidity is at most 1, a returning [update] leaves a capacity between 0
    and the capacity after the rainfall. *)
Theorem update_capacity_bounds (self self' : t) (weather : WeatherRecord) :
  0 <= _capacity self + rain_mm weather * accumulation_scale self ->
  0 <= evaporation_scale self ->
  rel_humid weather <= 1 ->
  update weather self = (Returns tt, self') ->
  0 <= _capacity self'
  <= _capacity self + rain_mm weather * accumulation_scale self.
Proof.
  intros Hc He Hh E.
  apply update_returns_inv in E as (rate & Er & ->).
  apply rate_outcome_returns_inv in Er as [Hz ->].
  pose proof (dry_rate_pos _ Hz) as Hp.
  set (P := exp _ * _ * sqrt _) in *.
  set (c1 := _capacity self + rain_mm weather * accumulation_scale self) in *.
  assert (Hk : 0 <= evaporation_scale self * (P * (1 - rel_humid weather)))
    by (apply Rmult_le_pos; [exact He | apply Rmult_le_pos; lra]).
  destruct (Rlt_dec _ 0) as [L | L]; cbn; nra.
Qed.

Lemma update_capacity_bounds_witness :
  exists self',
    update rainy_day rainfall_model = (Returns tt, self') /\
    0 <= _capacity self' <= 0 + 10 * 1.0.
Proof.
  assert (Hday : above_absolute_zero rainy_day)
    by (unfold above_absolute_zero; cbn; lra).
  destruct (RainfallProperties.rainfall_update_returns rainy_day
              rainfall_model Hday) as [self' E].
  exists self'. split; [exact E |].
  apply (update_capacity_bounds rainfall_model self' rainy_day);
    [cbn; lra | cbn; lra | cbn; lra | exact E].
Defined.

(** X7. Without rain nothing accumulates: a returning sequence of updates
    on days without rain leaves a model as it was constructed, with
    capacity 0. *)
Theorem dry_run_keeps_construction (a e : R) (ws : list WeatherRecord)
    (self' : t) :
  Forall (fun w => rain_mm w = 0) ws ->
  for_each update ws (__init__ a e) = (Returns tt, self') ->
  self' = __init__ a e.
Proof.
  intros Hdry.
  apply (for_each_invariant_on update (fun w => rain_mm w = 0)
           (fun s => s = __init__ a e)); [| exact Hdry | reflexivity].
  intros w s s' Hw -> E.
  apply update_returns_inv in E as (rate & _ & ->).
  rewrite Hw. unfold set_capacity, __init__, BaseHabitatModel.__init__. cbn.
  do 2 f_equal. destruct (Rlt_dec _ 0); lra.
Qed.

Lemma dry_run_keeps_construction_witness :
  for_each update [dry_day; dry_day] rainfall_model
  = (Returns tt, rainfall_model).
Proof.
  assert (Hday : Forall above_absolute_zero [dry_day; dry_day]).
  { repeat constructor; unfold above_absolute_zero; cbn; lra. }
  destruct (RainfallProperties.rainfall_run_returns [dry_day; dry_day]
              rainfall_model Hday) as [self' E].
  rewrite E. f_equal.
  apply (dry_run_keeps_construction 1.0 0.1 [dry_day; dry_day] self');
    [repeat constructor | exact E].
Defined.

(** X8. What [get_current_capacity] reports right after an [update] is the
    stored capacity, and it is never negative. *)
Theorem reported_capacity_nonnegative (self self' : t)
    (weather : WeatherRecord) (v : R) :
  (update weather ;; get_current_capacity) self = (Returns v, self') ->
  update weather self = (Returns tt, self') /\
  v = _capacity self' /\
  0 <= v.
Proof.
  intros E. apply bind_returns_inv in E as ([] & s1 & E1 & E2).
  rewrite RainfallProperties.rainfall_get_current_capacity_eq in E2.
  injection E2 as <- <-.
  repeat split; [exact E1 |].
  exact (RainfallProperties.rainfall_update_nonnegative _ _ _ E1).
Qed.

Lemma reported_capacity_nonnegative_witness :
  exists v self',
    (update rainy_day ;; get_current_capacity) rainfall_model
    = (Returns v, self') /\ 0 <= v.
Proof.
  assert (Hday : above_absolute_zero rainy_day)
    by (unfold above_absolute_zero; cbn; lra).
  destruct (RainfallProperties.rainfall_update_returns rainy_day
              rainfall_model Hday) as [self' E].
  assert (E' : (update rainy_day ;; get_current_capacity) rainfall_model
               = (Returns (_capacity self'), self')).
  { rewrite (bind_returns _ _ _ _ _ E).
    apply RainfallProperties.rainfall_get_current_capacity_eq. }
  exists (_capacity self'), self'. split; [exact E' |].
  apply (reported_capacity_nonnegative rainfall_model self' rainy_day _ E').
Defined.

End RainfallBehaviour.

(** ** The seasonal-stream model: composition, stream flow, division *)

Module StreamBehaviour.
Import SeasonalStreamHabitatModel.

Lemma stream_update_returns_inv (weather : WeatherRecord) (self self' : t) :
  update weather self = (Returns tt, self') ->
  exists p,
    TemporaryRainfallHabitatModel.update weather (rainfall self)
    = (Returns tt, p) /\
    let p' :=
      if Rgt_dec (TemporaryRainfallHabitatModel._capacity p)
           (max_capacity self)
      then TemporaryRainfallHabitatModel.set_capacity p (max_capacity self)
      else p in
    let flow1 := _stream_flow self + rain_mm weather in
    self' = set_stream_flow (set_rainfall self p')
              (flow1 - flow1 * stream_decay_scale self).
Proof.
  rewrite StreamProperties.stream_update_eq.
  destruct (TemporaryRainfallHabitatModel.update weather (rainfall self))
    as [[[] | e] p]; [| discriminate].
  cbv zeta. intros E. injection E as <-. now exists p.
Qed.

(** The outcome of the parent's update depends on the weather only. *)
Lemma rainfall_update_outcome (weather : WeatherRecord)
    (p : TemporaryRainfallHabitatModel.t) :
  fst (TemporaryRainfallHabitatModel.update weather p)
  = match rate_outcome weather with
    | Returns _ => Returns tt
    | Raises e => Raises e
    end.
Proof.
  rewrite RainfallProperties.rainfall_update_eq. cbv zeta.
  now destruct (rate_outcome weather).
Qed.

(** X9. The stream model is the rainfall model with a cap: after a
    returning [update] its capacity is the smaller of [max_capacity] and the
    capacity the parent's update computes. *)
Theorem stream_capacity_is_capped_rainfall (self self' : t)
    (weather : WeatherRecord) :
  update weather self = (Returns tt, self') ->
  exists p,
    TemporaryRainfallHabitatModel.update weather (rainfall self)
    = (Returns tt, p) /\
    _capacity self'
    = Rmin (TemporaryRainfallHabitatModel._capacity p) (max_capacity self).
Proof.
  intros E. apply stream_update_returns_inv in E as (p & Ep & ->).
  exists p. split; [exact Ep |].
  unfold Rmin.
  destruct (Rgt_dec _ _) as [G | G];
    destruct (Rle_dec _ _) as [L | L]; cbn; unfold _capacity; cbn; lra.
Qed.

Lemma stream_capacity_is_capped_rainfall_witness :
  exists p,
    TemporaryRainfallHabitatModel.update rainy_day (rainfall stream_model)
    = (Returns tt, p) /\
    _capacity (set_stream_flow (set_capacity stream_model 10) 5)
    = Rmin (TemporaryRainfallHabitatModel._capacity p)
        (max_capacity stream_model).
Proof.
  apply (stream_capacity_is_capped_rainfall stream_model _ rainy_day).
  apply (StreamProperties.scenario_update 25 0.8). lra.
Defined.

(** X10. The stream flow never feeds back into the capacity: two stream
    models that agree on the rainfall part and on [max_capacity] have the
    same outcome and the same rainfall part after an [update], whatever
    their stream flows, decay scales and flow thresholds are. *)
Theorem stream_flow_does_not_feed_back (s1 s2 : t) (weather : WeatherRecord) :
  rainfall s1 = rainfall s2 ->
  max_capacity s1 = max_capacity s2 ->
  fst (update weather s1) = fst (update weather s2) /\
  rainfall (snd (update weather s1)) = rainfall (snd (update weather s2)).
Proof.
  intros Hr Hm. rewrite !StreamProperties.stream_update_eq, Hr, Hm.
  destruct (TemporaryRainfallHabitatModel.update weather (rainfall s2))
    as [[[] | e] p]; cbv zeta; split; reflexivity.
Qed.

Lemma stream_flow_does_not_feed_back_witness :
  fst (update rainy_day stream_model)
  = fst (update rainy_day (set_stream_flow stream_model 40)) /\
  rainfall (snd (update rainy_day stream_model))
  = rainfall (snd (update rainy_day (set_stream_flow stream_model 40))).
Proof.
  apply (stream_flow_does_not_feed_back stream_model
           (set_stream_flow stream_model 40) rainy_day); reflexivity.
Defined.

(** X11. The capacity never feeds into the stream flow: two stream models
    that agree on the stream flow and on the decay scale have the same
    stream flow after an [update], whatever their capacities and other
    parameters are. *)
Theorem capacity_does_not_feed_stream_flow (s1 s2 : t)
    (weather : WeatherRecord) :
  _stream_flow s1 = _stream_flow s2 ->
  stream_decay_scale s1 = stream_decay_scale s2 ->
  _stream_flow (snd (update weather s1))
  = _stream_flow (snd (update weather s2)).
Proof.
  intros Hf Hd. rewrite !StreamProperties.stream_update_eq.
  pose proof (rainfall_update_outcome weather (rainfall s1)) as O1.
  pose proof (rainfall_update_outcome weather (rainfall s2)) as O2.
  destruct (TemporaryRainfallHabitatModel.update weather (rainfall s1))
    as [[[] | e1] p1];
    destruct (TemporaryRainfallHabitatModel.update weather (rainfall s2))
      as [[[] | e2] p2];
    cbn in O1, O2; destruct (rate_outcome weather); try discriminate;
    cbv zeta; cbn; rewrite ?Hf, ?Hd; reflexivity.
Qed.

Lemma capacity_does_not_feed_stream_flow_witness :
  _stream_flow (snd (update rainy_day stream_model))
  = _stream_flow (snd (update rainy_day (set_capacity stream_model 70))).
Proof.
  apply (capacity_does_not_feed_stream_flow stream_model
           (set_capacity stream_model 70) rainy_day); reflexivity.
Defined.

(** X12. With a decay scale in [0, 1], a positive flow threshold, a cap
    that is not negative and rainfall that is never negative, every returning
    sequence of updates from construction leaves a model whose stream flow
    is not negative and on which [get_current_capacity] returns, without
    division by zero, a value between 0 and the stored capacity, itself at
    most [max_capacity]. *)
Theorem reported_capacity_in_range (a e d ft mx : R)
    (ws : list WeatherRecord) (self' : t) :
  0 <= d <= 1 -> 0 < ft -> 0 <= mx ->
  Forall (fun w => 0 <= rain_mm w) ws ->
  for_each update ws (__init__ a e d ft mx) = (Returns tt, self') ->
  0 <= _stream_flow self' /\
  exists v,
    get_current_capacity self' = (Returns v, self') /\
    0 <= v <= _capacity self' /\
    _capacity self' <= mx.
Proof.
  intros Hd Hft Hmx Hrain E.
  apply (for_each_invariant_on update (fun w => 0 <= rain_mm w)
           (fun s => 0 <= _capacity s <= mx /\ 0 <= _stream_flow s /\
                     max_capacity s = mx /\ stream_decay_scale s = d /\
                     flow_threshold s = ft)) in E; [| | exact Hrain |].
  - destruct E as (Hc & Hf & _ & _ & Ht).
    split; [exact Hf |].
    rewrite StreamProperties.stream_get_current_capacity_eq, Ht.
    rewrite py_div_returns by lra.
    eexists. split; [reflexivity |].
    assert (Hs : 0 < ft / (_stream_flow self' + ft) <= 1).
    { split.
      - apply Rdiv_lt_0_compat; lra.
      - apply Rmult_le_reg_r with (_stream_flow self' + ft); [lra |].
        unfold Rdiv. rewrite Rmult_assoc, Rinv_l by lra. lra. }
    split; [nra | lra].
  - intros w s s' Hw (Hc & Hf & Hm & Hdec & Ht) Es.
    apply stream_update_returns_inv in Es as (p & Ep & ->).
    apply RainfallProperties.rainfall_update_nonnegative in Ep.
    cbv zeta. rewrite Hm, Hdec.
    destruct (Rgt_dec _ _) as [G | G]; cbn; unfold _capacity; cbn;
      repeat split; try lra; try assumption; nra.
  - cbn. unfold _capacity. cbn. repeat split; lra.
Qed.

Lemma reported_capacity_in_range_witness :
  let self' := set_stream_flow (set_capacity stream_model 10) 5 in
  0 <= _stream_flow self' /\
  exists v,
    get_current_capacity self' = (Returns v, self') /\
    0 <= v <= _capacity self' /\
    _capacity self' <= 100.
Proof.
  intros self'.
  apply (reported_capacity_in_range 1.0 0.0 0.5 5 100 [rainy_day] self');
    try lra.
  - repeat constructor. cbn. lra.
  - apply for_each_one, (StreamProperties.scenario_update 25 0.8). lra.
Defined.

(** X13. Decay never adds flow: with a decay scale in [0, 1], and when the
    stream flow with the day's rain added is not negative, a returning
    [update] leaves a stream flow between 0 and the stream flow with the
    rain added. *)
Theorem stream_flow_decay_bounds (self self' : t) (weather : WeatherRecord) :
  0 <= stream_decay_scale self <= 1 ->
  0 <= _stream_flow self + rain_mm weather ->
  update weather self = (Returns tt, self') ->
  0 <= _stream_flow self' <= _stream_flow self + rain_mm weather.
Proof.
  intros Hd Hf E.
  apply stream_update_returns_inv in E as (p & _ & ->).
  cbv zeta. cbn. split; nra.
Qed.

Lemma stream_flow_decay_bounds_witness :
  0 <= _stream_flow (set_stream_flow (set_capacity stream_model 10) 5)
  <= 0 + 10.
Proof.
  apply (stream_flow_decay_bounds stream_model _ rainy_day).
  - cbn. lra.
  - cbn. lra.
  - apply (StreamProperties.scenario_update 25 0.8). lra.
Defined.

(** X14. [get_current_capacity] raises [ZeroDivisionError] exactly when
    [stream_flow + flow_threshold] is zero, and returns otherwise; either
    way the state is left as it was.  A model constructed with
    [flow_threshold = 0] raises before any update. *)
Theorem get_current_capacity_division (self : t) :
  (get_current_capacity self = (Raises ZeroDivisionError, self)
   <-> _stream_flow self + flow_threshold self = 0) /\
  ((exists v, get_current_capacity self = (Returns v, self))
   <-> _stream_flow self + flow_threshold self <> 0) /\
  (forall a e d mx : R,
     get_current_capacity (__init__ a e d 0 mx)
     = (Raises ZeroDivisionError, __init__ a e d 0 mx)).
Proof.
  split; [| split].
  - rewrite StreamProperties.stream_get_current_capacity_eq. unfold py_div.
    destruct (Req_dec_T _ 0) as [E | E]; split; intros H;
      try easy; discriminate H.
  - rewrite StreamProperties.stream_get_current_capacity_eq. unfold py_div.
    destruct (Req_dec_T _ 0) as [E | E]; split; intros H; try easy.
    + destruct H as [v H]. discriminate H.
    + now eexists.
  - intros a e d mx.
    rewrite StreamProperties.stream_get_current_capacity_eq. cbn.
    rewrite Rplus_0_l. now rewrite py_div_raises.
Qed.

Lemma get_current_capacity_division_witness :
  get_current_capacity zero_threshold_model
  = (Raises ZeroDivisionError, zero_threshold_model) /\
  exists v, get_current_capacity stream_model = (Returns v, stream_model).
Proof.
  split.
  - apply (proj1 (get_current_capacity_division zero_threshold_model)).
    cbn. lra.
  - apply (proj1 (proj2 (get_current_capacity_division stream_model))).
    cbn. lra.
Defined.

(** X15. More flow, less reported capacity: of two models with the same
    capacity, not negative, and the same positive flow threshold, the one
    with the larger stream flow reports the smaller or equal capacity. *)
Theorem more_flow_less_capacity (s1 s2 : t) (v1 v2 : R) :
  _capacity s1 = _capacity s2 ->
  flow_threshold s1 = flow_threshold s2 ->
  0 <= _capacity s1 ->
  0 < flow_threshold s1 ->
  0 <= _stream_flow s1 <= _stream_flow s2 ->
  get_current_capacity s1 = (Returns v1, s1) ->
  get_current_capacity s2 = (Returns v2, s2) ->
  v2 <= v1.
Proof.
  intros Hc Ht Hc0 Ht0 Hf.
  rewrite !StreamProperties.stream_get_current_capacity_eq, <- Hc, <- Ht.
  rewrite !py_div_returns by lra.
  intros [= <-] [= <-].
  apply Rmult_le_compat_l; [exact Hc0 |].
  unfold Rdiv. apply Rmult_le_compat_l; [lra |].
  apply Rinv_le_contravar; lra.
Qed.

Lemma more_flow_less_capacity_witness :
  10 * (5 / (20 + 5)) <= 10 * (5 / (5 + 5)).
Proof.
  apply (more_flow_less_capacity
           (set_stream_flow (set_capacity stream_model 10) 5)
           (set_stream_flow (set_capacity stream_model 10) 20));
    try (cbn; lra); try reflexivity.
  - rewrite StreamProperties.stream_get_current_capacity_eq. cbn.
    now rewrite py_div_returns by lra.
  - rewrite StreamProperties.stream_get_current_capacity_eq. cbn.
    now rewrite py_div_returns by lra.
Defined.

(** X16. [flow_threshold] is the stream flow of half suppression: when the
    stream flow equals a flow threshold that is not zero,
    [get_current_capacity] returns half the stored capacity. *)
Theorem half_capacity_at_threshold (self : t) :
  _stream_flow self = flow_threshold self ->
  flow_threshold self <> 0 ->
  get_current_capacity self = (Returns (_capacity self / 2), self).
Proof.
  intros Hf Ht.
  rewrite StreamProperties.stream_get_current_capacity_eq, Hf.
  rewrite py_div_returns by lra.
  do 2 f_equal. field. lra.
Qed.

Lemma half_capacity_at_threshold_witness :
  let self := set_stream_flow (set_capacity stream_model 10) 5 in
  get_current_capacity self = (Returns (10 / 2), self).
Proof.
  intros self. apply (half_capacity_at_threshold self).
  - reflexivity.
  - cbn. lra.
Defined.

(** X17. [update] returns exactly on the days above absolute zero.  On any
    other day the exception of the parent's update ends the call: the
    rainfall has been added to the capacity, the cap has not been applied
    and the stream flow is as it was. *)
Theorem stream_update_domain (self : t) (weather : WeatherRecord) :
  ((exists self', update weather self = (Returns tt, self'))
   <-> 0 < mean_temp_C weather + 273.15) /\
  (mean_temp_C weather + 273.15 <= 0 ->
   exists e,
     update weather self =
     (Raises e,
      set_capacity self
        (_capacity self + rain_mm weather * accumulation_scale self))).
Proof.
  split; [split |].
  - intros [self' E].
    destruct (Rlt_dec 0 (mean_temp_C weather + 273.15)) as [L | L];
      [exact L |].
    destruct (StreamProperties.stream_update_raises weather self L)
      as [e E'].
    rewrite E' in E. discriminate E.
  - apply StreamProperties.stream_update_returns.
  - intros H. apply StreamProperties.stream_update_raises.
    unfold above_absolute_zero. lra.
Qed.

Lemma stream_update_domain_witness :
  (exists self', update rainy_day stream_model = (Returns tt, self')) /\
  exists e,
    update impossible_day stream_model =
    (Raises e, set_capacity stream_model (0 + 10 * 1.0)).
Proof.
  split.
  - apply (proj1 (stream_update_domain stream_model rainy_day)). cbn. lra.
  - apply (proj2 (stream_update_domain stream_model impossible_day)).
    cbn. lra.
Defined.

End StreamBehaviour.

(** ** Rounding *)

Module Binary64Properties.
Import PrimFloat.
#[local] Set Warnings "-inexact-float".
Local Open Scope float_scope.

(** With evaporation, rounding can reverse the order of the capacities left
    by two amounts of rain.  The model constructed with
    [accumulation_scale = 1.0] and [evaporation_scale = 0.55], at 25
    degrees and humidity 0.5 (rate 1.7378356355864488), is left with
    capacity 0.44190400427453014 by 10.000000000000002 mm of rain and with
    capacity 0.44190400427453191 by 10 mm. *)
Lemma binary64_response_not_monotone :
  let rate := Binary64.evaporation_rate Binary64.exp_value_25C 25 0.5 in
  let more_rain := 0x1.4000000000001p+3 in
  (10 <? more_rain) = true /\
  rate = 0x1.bce2cbd4aacbcp+0 /\
  Binary64.update 0 1.0 0.55 rate more_rain = 0x1.c4827bb9527c0p-2 /\
  Binary64.update 0 1.0 0.55 rate 10 = 0x1.c4827bb9527e0p-2 /\
  (Binary64.update 0 1.0 0.55 rate more_rain
   <? Binary64.update 0 1.0 0.55 rate 10) = true.
Proof. vm_compute. repeat split. Qed.

End Binary64Properties.
